(** * razer-ctl: device identification and command transport

    A shallow embedding of [librazer::device] ([src/librazer/src/device.rs])
    and of the session-selection part of the CLI's [main]
    ([src/razer-cli/src/main.rs]).

    The host (hidapi, the Windows registry, the Linux DMI files) is a read-only
    [World] that answers every request; each operation runs in a small monad
    that threads the trace of host interactions and returns a Rust-like
    [Result]. *)

From Stdlib Require Import ZArith Lia.
From Stdlib Require Import Ascii String.
From stdpp Require Import base list gmap strings.
Import ListNotations.
Open Scope Z_scope.

(* ------------------------------------------------------------------ *)
(** ** Data model *)

(** [hidapi::DeviceInfo], restricted to what [device.rs] reads. *)
Record HidInfo := mkHidInfo {
  hid_vid : Z;      (* u16 vendor_id() *)
  hid_pid : Z;      (* u16 product_id() *)
  hid_path : string (* path() *)
}.

(** [librazer::descriptor::Descriptor]; its fields are the ones [main.rs]
    names when it builds the manual descriptor. Features are feature names. *)
Record Descriptor := mkDescriptor {
  model_number_prefix : string;
  name : string;
  pid : Z;
  features : list string
}.

(** [Device { device: HidDevice, info: Descriptor }]. An open [HidDevice] is
    represented by the [HidInfo] of the interface it was opened from. *)
Record Device := mkDevice {
  dev_handle : HidInfo;
  info : Descriptor
}.

Definition RAZER_VID : Z := 0x1532.

(** Host platform, selecting the [#[cfg(target_os = ...)]] variant of
    [read_device_model]. *)
Inductive Platform := Windows | Linux | OtherOs.

(** The errors [read_device_model] produces. *)
Inductive ModelError :=
| RegistryError                 (* a `?` on open_subkey / get_value *)
| DmiReadError                  (* "DMI read error: {}" *)
| InvalidSku (sku : string)     (* "Invalid Razer SKU: {}" *)
| UnsupportedPlatform.          (* "Automatic model detection is not implemented ..." *)

(** The errors of [crate::packet] (deserialization and response matching). *)
Inductive PacketError :=
| PacketSizeInvalid             (* slice is not one frame long *)
| ChecksumInvalid               (* checksum does not verify *)
| IdentityMismatch.             (* response does not answer the request *)

(** The distinct [anyhow] errors of [device.rs]. *)
Inductive Error :=
| EHidApi                                 (* "Failed to create hid api" / "HID API error" *)
| EOpenPath (path : string)               (* `api.open_path(path)?` *)
| EFailedToOpen (d : Descriptor)          (* "Failed to open device {:?}" *)
| ESendFeature                            (* "Failed to send feature report" *)
| EGetFeature                             (* `get_feature_report(..)?` *)
| EResponseSize (len : nat)               (* "Response size != {}" *)
| EPacket (e : PacketError)               (* `try_into()?` / ensure_matches_report *)
| ENoRazerDevices                         (* "No Razer devices found" *)
| EDetectModel (e : ModelError)           (* "Failed to detect model: {}" *)
| ENotRazerLaptop (model : string)        (* "Detected model is not a Razer laptop: {}" *)
| EModelNotSupported (model : string) (pids : list Z). (* "Model {} with PIDs [{}] is not supported" *)

Inductive Result (A : Type) := Ok (a : A) | Err (e : Error).
Arguments Ok {A} a.
Arguments Err {A} e.

(** Interactions with the host, in the order they happen. *)
Inductive Event :=
| EvHidInit                               (* hidapi::HidApi::new() *)
| EvOpen (path : string)                  (* api.open_path *)
| EvClose (path : string)                 (* drop of a HidDevice *)
| EvSendFeature (path : string) (data : list Z) (* send_feature_report *)
| EvGetFeature (path : string) (buflen : nat)   (* get_feature_report *)
| EvSleep (micros : Z)                    (* thread::sleep *)
| EvReadModel.                            (* read_device_model *)

(** The host's answers. [w_hid_devices] is [None] when [HidApi::new] fails,
    otherwise the interfaces it enumerated, in enumeration order. *)
Record World := mkWorld {
  w_platform : Platform;
  w_hid_devices : option (list HidInfo);
  w_open_ok : string -> bool;                   (* open_path(path) succeeds *)
  w_send_feature_ok : string -> list Z -> bool; (* send_feature_report(path, data) *)
  w_get_feature : string -> option (nat * list Z); (* bytes count and data read *)
  w_windows_sku : option string;   (* HKLM\...\BIOS SystemSKU *)
  w_linux_sku : option string      (* contents of /sys/devices/virtual/dmi/id/product_sku *)
}.

(* ------------------------------------------------------------------ *)
(** ** The I/O monad: reader on the world, state on the trace, errors *)

Definition M (A : Type) := World -> list Event -> Result A * list Event.

Definition ret {A} (a : A) : M A := fun _ t => (Ok a, t).
Definition throw {A} (e : Error) : M A := fun _ t => (Err e, t).
Definition bind {A B} (m : M A) (k : A -> M B) : M B :=
  fun w t => match m w t with
             | (Ok a, t') => k a w t'
             | (Err e, t') => (Err e, t')
             end.
Definition emit (ev : Event) : M unit := fun _ t => (Ok tt, t ++ [ev]).
Definition ask : M World := fun w t => (Ok w, t).

Notation "x <- m ;; k" := (bind m (fun x => k))
  (at level 100, m at next level, right associativity).
Notation "m ;;; k" := (bind m (fun _ => k))
  (at level 100, right associativity).

Definition run {A} (m : M A) (w : World) : Result A * list Event := m w [].

(* ------------------------------------------------------------------ *)
(** ** hidapi primitives *)

(** [HidApi::new()] followed by [api.device_list()]. *)
Definition hid_api_new : M (list HidInfo) :=
  emit EvHidInit ;;;
  w <- ask ;;
  match w_hid_devices w with
  | Some l => ret l
  | None => throw EHidApi
  end.

Definition open_path (i : HidInfo) : M HidInfo :=
  emit (EvOpen (hid_path i)) ;;;
  w <- ask ;;
  if w_open_ok w (hid_path i) then ret i else throw (EOpenPath (hid_path i)).

(** [send_feature_report]; the boolean is [is_ok()]. *)
Definition send_feature_report (h : HidInfo) (data : list Z) : M bool :=
  emit (EvSendFeature (hid_path h) data) ;;;
  w <- ask ;;
  ret (w_send_feature_ok w (hid_path h) data).

(** The buffer after a read: same length, the data written over its front. *)
Definition fill_buffer (buf data : list Z) : list Z :=
  take (length buf) (data ++ drop (length data) buf).

(** [get_feature_report(&mut buf)]: the count of bytes read and the buffer
    after the read. *)
Definition get_feature_report (h : HidInfo) (buf : list Z) : M (nat * list Z) :=
  emit (EvGetFeature (hid_path h) (length buf)) ;;;
  w <- ask ;;
  match w_get_feature w (hid_path h) with
  | Some (n, data) => ret (n, fill_buffer buf data)
  | None => throw EGetFeature
  end.

Definition sleep (micros : Z) : M unit := emit (EvSleep micros).

(** Dropping a [HidDevice] closes it. *)
Definition close (h : HidInfo) : M unit := emit (EvClose (hid_path h)).

(* ------------------------------------------------------------------ *)
(** ** [Device::new] *)

Definition is_target (d : Descriptor) (i : HidInfo) : bool :=
  bool_decide (hid_vid i = RAZER_VID) && bool_decide (hid_pid i = pid d).

(** The [for] loop over the filtered candidates. *)
Fixpoint open_candidates (d : Descriptor) (cands : list HidInfo) : M Device :=
  match cands with
  | [] => throw (EFailedToOpen d)
  | i :: rest =>
      device <- open_path i ;;
      ok <- send_feature_report device [0; 0] ;;
      if ok then ret (mkDevice device d)
      else close device ;;; open_candidates d rest
  end.

Definition device_new (d : Descriptor) : M Device :=
  l <- hid_api_new ;;
  open_candidates d (filter (fun i => is_target d i = true) l).

(* ------------------------------------------------------------------ *)
(** ** [read_device_model], [Device::enumerate], [Device::detect] *)

(** A Rust [String] is modelled as its sequence of [char]s, one [ascii] per
    [char], for the code points U+0000 to U+00FF that an [ascii] holds.
    [char::is_whitespace] (the Unicode White_Space property) on these code
    points: U+0009 to U+000D, U+0020, U+0085 (NEL) and U+00A0 (NBSP). *)
Definition is_whitespace (c : ascii) : bool :=
  match Ascii.nat_of_ascii c with
  | 9 | 10 | 11 | 12 | 13 | 32 | 133 | 160 => true
  | _ => false
  end%nat.

Fixpoint trim_start (s : string) : string :=
  match s with
  | EmptyString => EmptyString
  | String c s' => if is_whitespace c then trim_start s' else s
  end.

Definition string_rev (s : string) : string :=
  string_of_list_ascii (rev (list_ascii_of_string s)).

(** [str::trim]. *)
Definition trim (s : string) : string :=
  string_rev (trim_start (string_rev (trim_start s))).

(** [read_device_model] for the platform of the world: the [Ok] string or the
    error it returns. *)
Definition read_device_model (w : World) : string + ModelError :=
  match w_platform w with
  | Windows =>
      (* system_sku.chars().take(10).collect() *)
      match w_windows_sku w with
      | Some system_sku => inl (substring 0 10 system_sku)
      | None => inr RegistryError
      end
  | Linux =>
      match w_linux_sku w with
      | Some sku =>
          let sku := trim sku in
          if String.prefix "RZ"%string sku then inl sku else inr (InvalidSku sku)
      | None => inr DmiReadError
      end
  | OtherOs => inr UnsupportedPlatform
  end.

Definition is_razer (i : HidInfo) : bool := bool_decide (hid_vid i = RAZER_VID).

(** [.map(product_id).collect::<HashSet<_>>().into_iter().collect()]: the
    distinct product ids. The order of a [HashSet] is unspecified and may
    differ between two sets; the model fixes one order, so lists built by two
    different calls are only compared up to permutation. *)
Definition unique_pids (l : list HidInfo) : list Z :=
  elements (list_to_set (map hid_pid l) : gset Z).

Definition enumerate : M (list Z * string) :=
  devices <- hid_api_new ;;
  let razer_devices := filter (fun i => is_razer i = true) devices in
  match razer_devices with
  | [] => throw ENoRazerDevices
  | _ :: _ =>
      let pids := unique_pids razer_devices in
      emit EvReadModel ;;;
      w <- ask ;;
      match read_device_model w with
      | inr e => throw (EDetectModel e)
      | inl model =>
          if String.prefix "RZ09-"%string model then ret (pids, model)
          else throw (ENotRazerLaptop model)
      end
  end.

(** [SUPPORTED.iter().find(|d| model.starts_with(d.model_number_prefix))]. *)
Definition find_supported (SUPPORTED : list Descriptor) (model : string)
  : option Descriptor :=
  List.find (fun d => String.prefix (model_number_prefix d) model) SUPPORTED.

Definition detect (SUPPORTED : list Descriptor) : M Device :=
  r <- enumerate ;;
  let (pid_list, model_number_prefix) := r in
  match find_supported SUPPORTED model_number_prefix with
  | Some desc => device_new desc
  | None => throw (EModelNotSupported model_number_prefix pid_list)
  end.

(* ------------------------------------------------------------------ *)
(** ** Command frames and [Device::send] *)

(** Modelled from the spec: [crate::packet::Packet] (the module is not part of
    the sources). The spec lists a frame's fields as a status byte, a
    transaction identifier, a command class, a command identifier, a declared
    argument length, a fixed-capacity argument buffer and a checksum computed
    over the rest of the frame; the identity of a response is its transaction,
    command class and command identifier. The checksum is stored, not a
    field of the record: encoding computes it. *)
Record Packet := mkPacket {
  pkt_status : Z;
  pkt_id : Z;
  pkt_command_class : Z;
  pkt_command_id : Z;
  pkt_data_size : Z;
  pkt_args : list Z
}.

Definition pkt_identity (p : Packet) : Z * Z * Z :=
  (pkt_id p, pkt_command_class p, pkt_command_id p).

Definition lift {A} (r : Result A) : M A := fun _ t => (r, t).

Section Frames.

(** Capacity of the argument buffer and the checksum algorithm, which the
    spec leaves open. *)
Variable args_len : nat.
Variable checksum : list Z -> Z.

(** [std::mem::size_of::<Packet>()]. *)
Definition frame_size : nat := 6 + args_len.

(** Modelled from the spec: [impl From<&Packet> for Vec<u8>]. *)
Definition encode_body (p : Packet) : list Z :=
  [pkt_status p; pkt_id p; pkt_command_class p; pkt_command_id p; pkt_data_size p]
  ++ take args_len (pkt_args p ++ replicate args_len 0).

Definition encode (p : Packet) : list Z :=
  encode_body p ++ [checksum (encode_body p)].

(** Modelled from the spec: [impl TryFrom<&[u8]> for Packet]; fails unless the
    checksum verifies. *)
Definition decode (bytes : list Z) : Result Packet :=
  if bool_decide (length bytes = frame_size) then
    let body := take (5 + args_len) bytes in
    let crc := default 0 (bytes !! (5 + args_len)%nat) in
    if bool_decide (crc = checksum body) then
      match body with
      | st :: i :: cls :: cmd :: sz :: args => Ok (mkPacket st i cls cmd sz args)
      | _ => Err (EPacket PacketSizeInvalid)
      end
    else Err (EPacket ChecksumInvalid)
  else Err (EPacket PacketSizeInvalid).

(** Modelled from the spec: [Packet::ensure_matches_report]. *)
Definition ensure_matches_report (response report : Packet) : Result Packet :=
  if bool_decide (pkt_identity response = pkt_identity report) then Ok response
  else Err (EPacket IdentityMismatch).

Definition send (dev : Device) (report : Packet) : M Packet :=
  (* extra byte for report id *)
  let response_buf := replicate (1 + frame_size) 0 in
  sleep 1000 ;;;
  ok <- send_feature_report (dev_handle dev) (0 :: encode report) ;;
  if negb ok then throw ESendFeature else
  sleep 2000 ;;;
  r <- get_feature_report (dev_handle dev) response_buf ;;
  let (n, buf) := r in
  if negb (bool_decide (length response_buf = n))
  then throw (EResponseSize (length response_buf)) else
  (* skip report id byte *)
  response <- lift (decode (drop 1 buf)) ;;
  lift (ensure_matches_report response report).

End Frames.

(* ------------------------------------------------------------------ *)
(** ** Session selection in the CLI's [main] *)

(** The first command-line argument, as [main] dispatches on it. *)
Inductive Subcommand :=
| CmdEnumerate
| CmdAuto
| CmdManual (pid : Z).

Section Cli.

(** [feature::ALL_FEATURES]. *)
Variable ALL_FEATURES : list string.

Definition unknown_descriptor (p : Z) : Descriptor :=
  mkDescriptor "Unknown" "Unknown" p ALL_FEATURES.

(** The session [main] hands to [handle]: in auto mode the one [detect]
    returned, in manual mode a fresh [Device::new] on the placeholder
    descriptor. *)
Definition main_session (SUPPORTED : list Descriptor) (cmd : Subcommand)
  : M (option Device) :=
  device <- (match cmd with
             | CmdAuto => d <- detect SUPPORTED ;; ret (Some d)
             | _ => ret None
             end) ;;
  match cmd with
  | CmdEnumerate => _ <- enumerate ;; ret None
  | CmdAuto => ret device
  | CmdManual p => d <- device_new (unknown_descriptor p) ;; ret (Some d)
  end.

End Cli.

(* ------------------------------------------------------------------ *)
(** ** Concrete hosts used by the examples *)

Definition blade : Descriptor := mkDescriptor "RZ09-04" "Blade" 0xABCD [].

Definition iface0 : HidInfo := mkHidInfo RAZER_VID 0xABCD "if0".
Definition iface1 : HidInfo := mkHidInfo RAZER_VID 0xABCD "if1".
Definition mouse : HidInfo := mkHidInfo 0x046d 0xc077 "mouse".

(** A Linux host with the given interfaces, each path opening and answering
    the probe as told, answering [get_feature_report] with [reply], and the
    given DMI product_sku. *)
Definition linux_host (devs : list HidInfo) (opens probes : string -> bool)
  (reply : option (nat * list Z)) (sku : option string) : World :=
  mkWorld Linux (Some devs) opens (fun p _ => probes p) (fun _ => reply) None sku.

Definition only (p : string) : string -> bool := fun q => String.eqb q p.
Definition all_paths : string -> bool := fun _ => true.

(* Interface 1 is the only live one: [Device::new] selects it. *)
Example device_new_second_live :
  run (device_new blade) (linux_host [mouse; iface0; iface1] all_paths (only "if1") None None)
  = (Ok (mkDevice iface1 blade),
     [EvHidInit; EvOpen "if0"; EvSendFeature "if0" [0; 0]; EvClose "if0";
      EvOpen "if1"; EvSendFeature "if1" [0; 0]]).
Proof. reflexivity. Qed.

Example enumerate_linux_ok :
  fst (run enumerate (linux_host [mouse; iface0; iface1] all_paths all_paths None
                        (Some "RZ09-0410
")))
  = Ok ([0xABCD], "RZ09-0410").
Proof. vm_compute. reflexivity. Qed.

(* ------------------------------------------------------------------ *)
(** ** Basic facts about the model *)

Lemma prefix_app (p s : string) :
  String.prefix p s = true <-> exists r, s = (p ++ r)%string.
Proof.
  revert s; induction p as [|c p IH]; intros s; simpl.
  - split; [intros _; by exists s | intros _; by destruct s].
  - destruct s as [|c' s].
    + split; [done|]. intros [r Hr]; discriminate.
    + cbn. destruct (ascii_dec c c') as [<-|Hne].
      * rewrite IH. split; intros [r Hr]; exists r; [by subst|by injection Hr].
      * split; [done|]. intros [r Hr]. injection Hr as Hc _. by subst.
Qed.

(** Unfold the monad and the host primitives. *)
Ltac unfold_io :=
  cbv [run bind ret throw emit ask lift sleep close open_path send_feature_report
       get_feature_report hid_api_new].

Definition rejected (w : World) (i : HidInfo) : Prop :=
  w_open_ok w (hid_path i) = true /\ w_send_feature_ok w (hid_path i) [0; 0] = false.

(** The trace of probing an interface, and of probing and dropping it. *)
Definition probe_trace (i : HidInfo) : list Event :=
  [EvOpen (hid_path i); EvSendFeature (hid_path i) [0; 0]].
Definition rejected_trace (l : list HidInfo) : list Event :=
  concat (map (fun i => probe_trace i ++ [EvClose (hid_path i)]) l).

Lemma open_candidates_skip w d pre rest t :
  Forall (rejected w) pre ->
  open_candidates d (pre ++ rest) w t = open_candidates d rest w (t ++ rejected_trace pre).
Proof.
  revert t; induction pre as [|i pre IH]; intros t Hpre; simpl.
  - by rewrite app_nil_r.
  - apply Forall_cons in Hpre as [[Ho Hp] Hpre].
    unfold_io; simpl. rewrite Ho; unfold_io. rewrite Hp.
    rewrite IH by done. f_equal. by rewrite <- !app_assoc.
Qed.

Lemma device_new_run d w l :
  w_hid_devices w = Some l ->
  run (device_new d) w = open_candidates d (filter (fun i => is_target d i = true) l) w [EvHidInit].
Proof. intros Hl. unfold device_new. unfold_io. by rewrite Hl. Qed.

(* ------------------------------------------------------------------ *)
(** ** C1: session establishment *)

(** C1 (counterexample). Two interfaces of the target; the first cannot be
    opened, the second opens and accepts the probe. [Device::new] does not
    skip the first: its [open_path(..)?] ends the operation with the open
    error, so no session is made. *)
Lemma device_new_open_error_aborts :
  let w := linux_host [iface0; iface1] (only "if1") (only "if1") None None in
  w_open_ok w "if1" = true /\ w_send_feature_ok w "if1" [0; 0] = true /\
  run (device_new blade) w = (Err (EOpenPath "if0"), [EvHidInit; EvOpen "if0"]).
Proof. vm_compute. repeat split. Qed.

(** C1 (amended). Over the interfaces with (vendor, product) = (0x1532, pid),
    in enumeration order: one that opens but rejects the 2-byte probe is
    closed and skipped; the first that opens and accepts the probe is the
    session; an interface that fails to open ends the operation with its open
    error; when every candidate (possibly none) rejects the probe the result
    is "Failed to open device". *)
Theorem device_new_selection d w l :
  w_hid_devices w = Some l ->
  let cands := filter (fun i => is_target d i = true) l in
  (forall pre c post, cands = pre ++ c :: post -> Forall (rejected w) pre ->
     w_open_ok w (hid_path c) = true -> w_send_feature_ok w (hid_path c) [0; 0] = true ->
     run (device_new d) w
     = (Ok (mkDevice c d), [EvHidInit] ++ rejected_trace pre ++ probe_trace c)) /\
  (forall pre c post, cands = pre ++ c :: post -> Forall (rejected w) pre ->
     w_open_ok w (hid_path c) = false ->
     run (device_new d) w
     = (Err (EOpenPath (hid_path c)), [EvHidInit] ++ rejected_trace pre ++ [EvOpen (hid_path c)])) /\
  (Forall (rejected w) cands ->
     run (device_new d) w = (Err (EFailedToOpen d), [EvHidInit] ++ rejected_trace cands)).
Proof.
  intros Hl cands. rewrite (device_new_run d w l Hl). fold cands.
  split; [|split].
  - intros pre c post Hc Hpre Ho Hp. rewrite Hc, open_candidates_skip by done.
    simpl. unfold_io. rewrite Ho. unfold_io. rewrite Hp. f_equal; by rewrite <- !app_assoc.
  - intros pre c post Hc Hpre Ho. rewrite Hc, open_candidates_skip by done.
    simpl. unfold_io. rewrite Ho. unfold_io. f_equal; by rewrite <- !app_assoc.
  - intros Hall. pose proof (open_candidates_skip w d cands [] [EvHidInit] Hall) as H.
    rewrite app_nil_r in H. rewrite H. reflexivity.
Qed.

Lemma device_new_selection_witness :
  w_hid_devices (linux_host [mouse; iface0; iface1] all_paths (only "if1") None None)
    = Some [mouse; iface0; iface1] /\
  run (device_new blade) (linux_host [mouse; iface0; iface1] all_paths (only "if1") None None)
    = (Ok (mkDevice iface1 blade), [EvHidInit] ++ rejected_trace [iface0] ++ probe_trace iface1).
Proof.
  split; [reflexivity|].
  apply (proj1 (device_new_selection blade
           (linux_host [mouse; iface0; iface1] all_paths (only "if1") None None)
           [mouse; iface0; iface1] eq_refl) [iface0] iface1 []).
  - reflexivity.
  - constructor; [split; reflexivity | constructor].
  - reflexivity.
  - reflexivity.
Defined.

(* ------------------------------------------------------------------ *)
(** ** C4: registry lookup *)

(** [s.starts_with(d.model_number_prefix)], as a proposition. *)
Definition prefix_matches (s : string) (d : Descriptor) : Prop :=
  exists r, s = (model_number_prefix d ++ r)%string.

Lemma prefix_matches_spec s d :
  String.prefix (model_number_prefix d) s = true <-> prefix_matches s d.
Proof. apply prefix_app. Qed.

Definition blade_041 : Descriptor := mkDescriptor "RZ09-041" "Blade 041" 0xABCE [].

Example find_overlap_first_entry :
  find_supported [blade; blade_041] "RZ09-0410" = Some blade.
Proof. reflexivity. Qed.

Example find_overlap_first_entry' :
  find_supported [blade_041; blade] "RZ09-0410" = Some blade_041.
Proof. reflexivity. Qed.

(** C4. The lookup returns the first Descriptor, in table order, whose model
    prefix is a prefix of the identifier, and nothing when no prefix matches. *)
Theorem find_supported_first_match (SUPPORTED : list Descriptor) (s : string) :
  (forall d, find_supported SUPPORTED s = Some d <->
     exists pre post, SUPPORTED = pre ++ d :: post /\
       Forall (fun e => ~ prefix_matches s e) pre /\ prefix_matches s d) /\
  (find_supported SUPPORTED s = None <->
     Forall (fun e => ~ prefix_matches s e) SUPPORTED).
Proof.
  induction SUPPORTED as [|e T [IHs IHn]]; simpl.
  - split.
    + intros d; split; [done|]. intros (pre & post & Hnil & _). by destruct pre.
    + split; [constructor | done].
  - destruct (String.prefix (model_number_prefix e) s) eqn:He.
    + apply prefix_matches_spec in He. split.
      * intros d; split.
        -- intros [= <-]. exists [], T. repeat split; [constructor | done].
        -- intros (pre & post & Heq & Hpre & Hd). destruct pre as [|e' pre].
           ++ by injection Heq as ->.
           ++ injection Heq as -> _. apply Forall_cons in Hpre as [Hn _]. done.
      * split; [done|]. intros Hall. apply Forall_cons in Hall as [Hn _]. done.
    + assert (~ prefix_matches s e) as Hne.
      { intros Hm. apply prefix_matches_spec in Hm. congruence. }
      split.
      * intros d. rewrite IHs. split.
        -- intros (pre & post & Heq & Hpre & Hd). exists (e :: pre), post.
           rewrite Heq. repeat split; [by constructor | done].
        -- intros (pre & post & Heq & Hpre & Hd). destruct pre as [|e' pre].
           ++ injection Heq as -> _. done.
           ++ injection Heq as -> HT. apply Forall_cons in Hpre as [_ Hpre].
              by exists pre, post.
      * rewrite IHn. split; [by constructor|]. by intros [_ ?]%Forall_cons.
Qed.

Lemma find_supported_first_match_witness :
  find_supported [blade; blade_041] "RZ09-0410" = Some blade.
Proof.
  apply (proj1 (find_supported_first_match [blade; blade_041] "RZ09-0410") blade).
  exists [], [blade_041]. split; [reflexivity|]. split; [constructor|].
  exists "10". reflexivity.
Defined.

(* ------------------------------------------------------------------ *)
(** ** Running [enumerate] *)

Lemma enumerate_run_api_error w :
  w_hid_devices w = None -> run enumerate w = (Err EHidApi, [EvHidInit]).
Proof. intros Hn. unfold enumerate. unfold_io. by rewrite Hn. Qed.

Lemma enumerate_run w l :
  w_hid_devices w = Some l ->
  run enumerate w =
    match filter (fun i => is_razer i = true) l with
    | [] => (Err ENoRazerDevices, [EvHidInit])
    | razer => ((match read_device_model w with
                 | inr e => Err (EDetectModel e)
                 | inl model =>
                     if String.prefix "RZ09-" model then Ok (unique_pids razer, model)
                     else Err (ENotRazerLaptop model)
                 end), [EvHidInit; EvReadModel])
    end.
Proof.
  intros Hl. unfold enumerate. unfold_io. rewrite Hl.
  destruct (filter _ l) as [|i r]; [reflexivity|].
  destruct (read_device_model w) as [m|e]; [|reflexivity].
  by destruct (String.prefix _ m).
Qed.

Lemma razer_filter_nil l :
  filter (fun i => is_razer i = true) l = [] <-> Forall (fun i => hid_vid i <> RAZER_VID) l.
Proof.
  induction l as [|i l IH]; [split; [constructor|done]|].
  rewrite filter_cons, Forall_cons.
  destruct (decide (is_razer i = true)) as [Hv|Hv]; unfold is_razer in Hv.
  - apply bool_decide_eq_true in Hv. split; [done|]. by intros [? _].
  - apply not_true_iff_false, bool_decide_eq_false in Hv.
    rewrite IH. split; [intros ?; by split | by intros [_ ?]].
Qed.

Lemma in_razer_filter l i :
  In i (filter (fun i => is_razer i = true) l) <-> In i l /\ hid_vid i = RAZER_VID.
Proof.
  rewrite <- list_elem_of_In, list_elem_of_filter, list_elem_of_In.
  unfold is_razer. rewrite bool_decide_eq_true. tauto.
Qed.

Lemma in_unique_pids l p :
  In p (unique_pids l) <-> exists i, In i l /\ hid_pid i = p.
Proof.
  unfold unique_pids.
  rewrite <- list_elem_of_In, elem_of_elements, elem_of_list_to_set, list_elem_of_In, in_map_iff.
  split; intros (i & ? & ?); eauto.
Qed.

(* ------------------------------------------------------------------ *)
(** ** C7: enumerate *)

Definition razer_visible (w : World) : Prop :=
  exists l i, w_hid_devices w = Some l /\ In i l /\ hid_vid i = RAZER_VID.

(** C7. With no interface of vendor 0x1532 visible, [enumerate] fails with
    "No Razer devices found" before [read_device_model] is called; the model
    is read, and a provider error reported, only when such an interface
    exists; on success the product ids are those of the vendor's interfaces,
    each once. *)
Theorem enumerate_vendor_check_first (w : World) :
  (forall l, w_hid_devices w = Some l -> Forall (fun i => hid_vid i <> RAZER_VID) l ->
     run enumerate w = (Err ENoRazerDevices, [EvHidInit])) /\
  (In EvReadModel (snd (run enumerate w)) -> razer_visible w) /\
  (forall e, fst (run enumerate w) = Err (EDetectModel e) -> razer_visible w) /\
  (forall pids model, fst (run enumerate w) = Ok (pids, model) ->
     NoDup pids /\
     forall p, In p pids <->
       exists l i, w_hid_devices w = Some l /\ In i l /\ hid_vid i = RAZER_VID /\ hid_pid i = p).
Proof.
  destruct (w_hid_devices w) as [l|] eqn:Hw.
  - rewrite (enumerate_run w l Hw).
    destruct (filter (fun i => is_razer i = true) l) as [|i r] eqn:Hf.
    + split; [|split; [|split]].
      * intros ? _ _. reflexivity.
      * intros [Hc|[]]. discriminate.
      * intros ? Hc. discriminate.
      * intros ? ? Hc. discriminate.
    + assert (razer_visible w) as Hvis.
      { exists l, i. rewrite <- in_razer_filter, Hf. by split; [|left]. }
      split; [|split; [|split]].
      * intros l' [= <-] Hall. apply razer_filter_nil in Hall. congruence.
      * intros _. done.
      * intros _ _. done.
      * intros pids model Hok.
        destruct (read_device_model w) as [m|e]; [|discriminate].
        destruct (String.prefix _ m); [|discriminate].
        injection Hok as <- <-. split; [unfold unique_pids; apply NoDup_elements|].
        intros p. rewrite in_unique_pids. split.
        -- intros (j & Hj & <-). rewrite <- Hf, in_razer_filter in Hj.
           exists l, j. by destruct Hj.
        -- intros (l' & j & [= <-] & Hj & Hv & <-). exists j.
           rewrite <- Hf, in_razer_filter. done.
  - rewrite (enumerate_run_api_error w Hw).
    split; [|split; [|split]].
    + intros ? Hc. discriminate.
    + intros [Hc|[]]. discriminate.
    + intros ? Hc. discriminate.
    + intros ? ? Hc. discriminate.
Qed.

Definition mouse_only_host : World :=
  linux_host [mouse] all_paths all_paths None (Some "RZ09-0410").

Lemma enumerate_vendor_check_first_witness :
  w_hid_devices mouse_only_host = Some [mouse] /\
  Forall (fun i => hid_vid i <> RAZER_VID) [mouse] /\
  run enumerate mouse_only_host = (Err ENoRazerDevices, [EvHidInit]).
Proof.
  assert (Forall (fun i => hid_vid i <> RAZER_VID) [mouse]) as Hm.
  { constructor; [unfold mouse, RAZER_VID; simpl; lia | constructor]. }
  split; [reflexivity|]. split; [exact Hm|].
  exact (proj1 (enumerate_vendor_check_first mouse_only_host) [mouse] eq_refl Hm).
Defined.

(* ------------------------------------------------------------------ *)
(** ** Running [detect]; validation of the model identifier *)

Lemma detect_run SUPPORTED w :
  run (detect SUPPORTED) w =
    match run enumerate w with
    | (Ok (pids, model), t) =>
        match find_supported SUPPORTED model with
        | Some desc => device_new desc w t
        | None => (Err (EModelNotSupported model pids), t)
        end
    | (Err e, t) => (Err e, t)
    end.
Proof.
  unfold run, detect, bind.
  destruct (enumerate w []) as [[[pids model]|e] t]; [|reflexivity].
  by destruct (find_supported SUPPORTED model).
Qed.

Lemma find_supported_app pre d post s :
  Forall (fun e => ~ prefix_matches s e) pre -> prefix_matches s d ->
  find_supported (pre ++ d :: post) s = Some d.
Proof.
  intros Hpre Hd. induction Hpre as [|e pre He _ IH]; simpl.
  - apply prefix_matches_spec in Hd. by rewrite Hd.
  - destruct (String.prefix (model_number_prefix e) s) eqn:Hm; [|exact IH].
    apply prefix_matches_spec in Hm. done.
Qed.

(** The errors saying that the model is not one of the supported laptops:
    "not a Razer laptop" and "Model ... is not supported". *)
Definition model_not_recognized (e : Error) : Prop :=
  match e with
  | ENotRazerLaptop _ | EModelNotSupported _ _ => True
  | _ => False
  end.

Definition blade_host (sku : option string) : World :=
  linux_host [iface0] all_paths all_paths None sku.

(** C5 (counterexample). On Linux the SKU "XYZ-0001", which does not start
    with "RZ09-", is refused by [read_device_model] itself ("Invalid Razer
    SKU"); [detect] reports it as "Failed to detect model", the error it also
    gives when the DMI file cannot be read, and not as a model that is not
    recognized. *)
Lemma detect_invalid_sku_reported_as_detection_failure :
  String.prefix "RZ09-" "XYZ-0001" = false /\
  fst (run (detect [blade]) (blade_host (Some "XYZ-0001")))
    = Err (EDetectModel (InvalidSku "XYZ-0001")) /\
  fst (run (detect [blade]) (blade_host None)) = Err (EDetectModel DmiReadError) /\
  ~ model_not_recognized (EDetectModel (InvalidSku "XYZ-0001")).
Proof. vm_compute. repeat split. by intros []. Qed.

(** C5 (amended). When the HID layer lists a vendor interface: an identifier
    that the platform provider returns and that does not start with "RZ09-"
    makes [detect] fail with "not a Razer laptop", before any interface is
    opened; on Linux a SKU that does not start with "RZ" once trimmed is
    refused by the provider and reported as "Failed to detect model: Invalid
    Razer SKU"; "RZ09-0410" selects the first registry entry that matches it,
    for instance one with prefix "RZ09-04" preceded by no matching entry, and
    the session is then opened for it; "RZ08-0001" fails with "not a Razer
    laptop". *)
Theorem detect_model_convention (SUPPORTED : list Descriptor) (w : World) (l : list HidInfo) :
  w_hid_devices w = Some l -> (exists i, In i l /\ hid_vid i = RAZER_VID) ->
  (forall m, read_device_model w = inl m -> String.prefix "RZ09-" m = false ->
     run (detect SUPPORTED) w = (Err (ENotRazerLaptop m), [EvHidInit; EvReadModel])) /\
  (forall sku, w_platform w = Linux -> w_linux_sku w = Some sku ->
     String.prefix "RZ" (trim sku) = false ->
     run (detect SUPPORTED) w
     = (Err (EDetectModel (InvalidSku (trim sku))), [EvHidInit; EvReadModel])) /\
  (read_device_model w = inl "RZ09-0410" ->
     forall pre d post, SUPPORTED = pre ++ d :: post ->
       Forall (fun e => ~ prefix_matches "RZ09-0410" e) pre ->
       model_number_prefix d = "RZ09-04" ->
       run (detect SUPPORTED) w = device_new d w [EvHidInit; EvReadModel]) /\
  (read_device_model w = inl "RZ08-0001" ->
     run (detect SUPPORTED) w = (Err (ENotRazerLaptop "RZ08-0001"), [EvHidInit; EvReadModel])).
Proof.
  intros Hl (i & Hi & Hv).
  assert (filter (fun i => is_razer i = true) l <> []) as Hne.
  { intros Hnil. apply razer_filter_nil in Hnil. rewrite Forall_forall in Hnil.
    apply (Hnil i); [by apply list_elem_of_In | exact Hv]. }
  rewrite detect_run, (enumerate_run w l Hl).
  destruct (filter (fun i => is_razer i = true) l) as [|j r]; [done|].
  split; [|split; [|split]].
  - intros m Hm Hp. by rewrite Hm, Hp.
  - intros sku Hpl Hs Hrz. unfold read_device_model. rewrite Hpl, Hs. simpl.
    by rewrite Hrz.
  - intros Hm pre d post -> Hpre Hd. rewrite Hm. simpl.
    rewrite find_supported_app; [reflexivity|exact Hpre|].
    exists "10". by rewrite Hd.
  - intros Hm. by rewrite Hm.
Qed.

Lemma detect_model_convention_witness :
  w_hid_devices (blade_host (Some "RZ09-0410")) = Some [iface0] /\
  run (detect [blade]) (blade_host (Some "RZ09-0410"))
  = device_new blade (blade_host (Some "RZ09-0410")) [EvHidInit; EvReadModel].
Proof.
  split; [reflexivity|].
  refine (proj1 (proj2 (proj2 (detect_model_convention [blade] (blade_host (Some "RZ09-0410"))
            [iface0] eq_refl _))) _ [] blade [] eq_refl (List.Forall_nil _) eq_refl).
  - exists iface0. split; [left; reflexivity | reflexivity].
  - vm_compute. reflexivity.
Defined.

(* ------------------------------------------------------------------ *)
(** ** C8: who validates the model identifier *)

(** C8 (counterexample). The provider does not hand back the raw identifier:
    on Linux it refuses a SKU without the "RZ" prefix itself, so [enumerate]
    reports a provider failure ("Failed to detect model"), not "not a Razer
    laptop"; on Windows it keeps only the first 10 characters. *)
Lemma provider_validates_linux_sku :
  read_device_model (blade_host (Some "XYZ-0001")) = inr (InvalidSku "XYZ-0001") /\
  fst (run enumerate (blade_host (Some "XYZ-0001")))
    = Err (EDetectModel (InvalidSku "XYZ-0001")) /\
  read_device_model (mkWorld Windows (Some [iface0]) all_paths (fun _ _ => true)
                       (fun _ => None) (Some "RZ09-0410-EXTRA") None)
    = inl "RZ09-0410-".
Proof. vm_compute. repeat split. Qed.

(** C8 (amended). On Windows the provider returns the first 10 characters of
    the registry's SystemSKU; on Linux it trims the DMI product_sku and itself
    refuses a value that does not start with "RZ"; [enumerate] (with a vendor
    interface present) reports any provider error as "Failed to detect model",
    and reports an identifier the provider returns that does not start with
    "RZ09-" as "not a Razer laptop". *)
Theorem model_validation_split (w : World) (l : list HidInfo) :
  (w_platform w = Windows -> forall sku, w_windows_sku w = Some sku ->
     read_device_model w = inl (substring 0 10 sku)) /\
  (w_platform w = Linux -> forall sku, w_linux_sku w = Some sku ->
     read_device_model w = if String.prefix "RZ" (trim sku) then inl (trim sku)
                           else inr (InvalidSku (trim sku))) /\
  (w_hid_devices w = Some l -> (exists i, In i l /\ hid_vid i = RAZER_VID) ->
     (forall m, read_device_model w = inl m -> String.prefix "RZ09-" m = false ->
        fst (run enumerate w) = Err (ENotRazerLaptop m)) /\
     (forall e, read_device_model w = inr e ->
        fst (run enumerate w) = Err (EDetectModel e))).
Proof.
  split; [|split].
  - intros Hpl sku Hs. unfold read_device_model. by rewrite Hpl, Hs.
  - intros Hpl sku Hs. unfold read_device_model. by rewrite Hpl, Hs.
  - intros Hl (i & Hi & Hv). rewrite (enumerate_run w l Hl).
    destruct (filter (fun i => is_razer i = true) l) as [|j r] eqn:Hf.
    + apply razer_filter_nil in Hf. rewrite Forall_forall in Hf.
      exfalso. apply (Hf i); [by apply list_elem_of_In | exact Hv].
    + split.
      * intros m Hm Hp. by rewrite Hm, Hp.
      * intros e He. by rewrite He.
Qed.

Lemma model_validation_split_witness :
  w_platform (blade_host (Some "XYZ-0001")) = Linux /\
  w_linux_sku (blade_host (Some "XYZ-0001")) = Some "XYZ-0001" /\
  read_device_model (blade_host (Some "XYZ-0001")) = inr (InvalidSku "XYZ-0001").
Proof.
  split; [reflexivity|]. split; [reflexivity|].
  rewrite (proj1 (proj2 (model_validation_split (blade_host (Some "XYZ-0001")) [iface0]))
             eq_refl "XYZ-0001" eq_refl).
  vm_compute. reflexivity.
Defined.

(* ------------------------------------------------------------------ *)
(** ** Running [send] *)

Section Exchange.

Variable args_len : nat.
Variable checksum : list Z -> Z.


Lemma length_encode p : length ((encode args_len checksum) p) = (frame_size args_len).
Proof.
  unfold encode, encode_body, frame_size. rewrite !length_app, length_take, length_app.
  simpl. rewrite length_replicate. lia.
Qed.

(** The response buffer, [1 + size_of::<Packet>()] zero bytes. *)
Definition response_buf0 : list Z := replicate (1 + (frame_size args_len))%nat 0.

Lemma length_fill_buffer buf data : length (fill_buffer buf data) = length buf.
Proof.
  unfold fill_buffer. rewrite length_take, length_app, length_drop. lia.
Qed.

Lemma send_run dev req w :
  let h := hid_path (dev_handle dev) in
  run ((send args_len checksum) dev req) w =
    if w_send_feature_ok w h (0 :: (encode args_len checksum) req) then
      (match w_get_feature w h with
       | None => Err EGetFeature
       | Some (n, data) =>
           if bool_decide ((1 + (frame_size args_len))%nat = n) then
             match (decode args_len checksum) (drop 1 (fill_buffer response_buf0 data)) with
             | Ok r => ensure_matches_report r req
             | Err e => Err e
             end
           else Err (EResponseSize (1 + (frame_size args_len))%nat)
       end,
       [EvSleep 1000; EvSendFeature h (0 :: (encode args_len checksum) req); EvSleep 2000;
        EvGetFeature h (1 + (frame_size args_len))%nat])
    else (Err ESendFeature, [EvSleep 1000; EvSendFeature h (0 :: (encode args_len checksum) req)]).
Proof.
  intros h. unfold send. unfold_io. fold h.
  rewrite !length_replicate. fold (response_buf0).
  destruct (w_send_feature_ok w h _); [|reflexivity].
  cbn -[frame_size decode fill_buffer response_buf0 encode].
  destruct (w_get_feature w h) as [[n data]|]; [|reflexivity].
  cbn -[frame_size decode fill_buffer response_buf0 encode].
  case_bool_decide; cbn -[frame_size decode fill_buffer response_buf0 encode]; [|reflexivity].
  by destruct (decode args_len checksum _).
Qed.

(** Decoding a slice of one frame fails only on the checksum. *)
Lemma decode_frame_error bytes e :
  length bytes = (frame_size args_len) -> (decode args_len checksum) bytes = Err e -> e = EPacket ChecksumInvalid.
Proof.
  intros Hlen. unfold decode. rewrite bool_decide_true by done.
  unfold frame_size in Hlen.
  destruct bytes as [|a [|b [|c [|d [|f rest]]]]]; simpl in Hlen; try lia.
  simpl. case_bool_decide; [discriminate|]. by intros [= <-].
Qed.

Lemma length_response_slice data :
  length (drop 1 (fill_buffer response_buf0 data)) = (frame_size args_len).
Proof.
  rewrite length_drop, length_fill_buffer. unfold response_buf0.
  rewrite length_replicate. lia.
Qed.

End Exchange.

Section ExchangeClaims.

Variable args_len : nat.
Variable checksum : list Z -> Z.

(** C2. [send] returns a frame only when the frame read back decodes (its
    checksum verifies) and has the request's identity; a checksum failure
    gives [ChecksumInvalid], and only a frame that decoded is compared with
    the request, a different identity giving [IdentityMismatch]. *)
Theorem send_validates_response (dev : Device) (req : Packet) (w : World) :
  let h := hid_path (dev_handle dev) in
  let slice data := drop 1 (fill_buffer (response_buf0 args_len) data) in
  (forall r, fst (run (send args_len checksum dev req) w) = Ok r ->
     exists data, w_get_feature w h = Some ((1 + frame_size args_len)%nat, data) /\
       decode args_len checksum (slice data) = Ok r /\
       pkt_identity r = pkt_identity req) /\
  (forall data, w_send_feature_ok w h (0 :: encode args_len checksum req) = true ->
     w_get_feature w h = Some ((1 + frame_size args_len)%nat, data) ->
     (forall e, decode args_len checksum (slice data) = Err e ->
        e = EPacket ChecksumInvalid /\
        fst (run (send args_len checksum dev req) w) = Err (EPacket ChecksumInvalid)) /\
     (forall r, decode args_len checksum (slice data) = Ok r ->
        pkt_identity r <> pkt_identity req ->
        fst (run (send args_len checksum dev req) w) = Err (EPacket IdentityMismatch)) /\
     (forall r, decode args_len checksum (slice data) = Ok r ->
        pkt_identity r = pkt_identity req ->
        fst (run (send args_len checksum dev req) w) = Ok r)).
Proof.
  intros h slice. subst slice. rewrite send_run. fold h. split.
  - intros r.
    destruct (w_send_feature_ok w h _); [|discriminate]. simpl.
    destruct (w_get_feature w h) as [[n data]|]; [|discriminate].
    case_bool_decide as Hn; [subst n|discriminate].
    destruct (decode args_len checksum _) as [r'|e] eqn:Hd; [|discriminate].
    unfold ensure_matches_report. case_bool_decide as Hid; [|discriminate].
    intros [= <-]. by exists data.
  - intros data Hw Hg. rewrite Hw, Hg. simpl. rewrite bool_decide_true by done.
    split; [|split].
    + intros e He. rewrite He.
      split; [|f_equal]; eapply decode_frame_error; [apply length_response_slice|exact He|
                                                   apply length_response_slice|exact He].
    + intros r Hr Hne. rewrite Hr. unfold ensure_matches_report.
      by rewrite bool_decide_false.
    + intros r Hr Heq. rewrite Hr. unfold ensure_matches_report.
      by rewrite bool_decide_true.
Qed.

(** C3. The response is read into a buffer of exactly [1 + frame_size]
    bytes; any other count read, 0 and [frame_size] included, fails with
    "Response size != 1 + frame_size", and a frame is returned only after a
    read of exactly that size. *)
Theorem send_exact_response_size (dev : Device) (req : Packet) (w : World) :
  let h := hid_path (dev_handle dev) in
  (forall p len, In (EvGetFeature p len) (snd (run (send args_len checksum dev req) w)) ->
     p = h /\ len = (1 + frame_size args_len)%nat) /\
  (forall n data, w_send_feature_ok w h (0 :: encode args_len checksum req) = true ->
     w_get_feature w h = Some (n, data) -> n <> (1 + frame_size args_len)%nat ->
     fst (run (send args_len checksum dev req) w)
     = Err (EResponseSize (1 + frame_size args_len))) /\
  (forall r, fst (run (send args_len checksum dev req) w) = Ok r ->
     exists data, w_get_feature w h = Some ((1 + frame_size args_len)%nat, data)).
Proof.
  intros h. rewrite send_run. fold h. split; [|split].
  - intros p len. destruct (w_send_feature_ok w h _); simpl.
    + intros [?|[?|[?|[Hev|[]]]]]; try discriminate. by injection Hev as -> ->.
    + intros [?|[?|[]]]; discriminate.
  - intros n data Hw Hg Hn. rewrite Hw, Hg. simpl. by rewrite bool_decide_false.
  - intros r.
    destruct (w_send_feature_ok w h _); [|discriminate]. simpl.
    destruct (w_get_feature w h) as [[n data]|]; [|discriminate].
    case_bool_decide as Hn; [subst n|discriminate]. intros _. by exists data.
Qed.

(** C6 (amended). [send] first sleeps 1000 us and writes the feature report,
    report id 0 followed by the encoded frame; if the write succeeds it sleeps
    2000 us, longer than the first delay, and then reads; if the write fails the call ends there with
    "Failed to send feature report", with no second sleep and no read. *)
Theorem send_timing (dev : Device) (req : Packet) (w : World) :
  let h := hid_path (dev_handle dev) in
  let frame := 0 :: encode args_len checksum req in
  (w_send_feature_ok w h frame = true ->
     snd (run (send args_len checksum dev req) w)
     = [EvSleep 1000; EvSendFeature h frame; EvSleep 2000;
        EvGetFeature h (1 + frame_size args_len)]) /\
  (w_send_feature_ok w h frame = false ->
     run (send args_len checksum dev req) w
     = (Err ESendFeature, [EvSleep 1000; EvSendFeature h frame])).
Proof.
  intros h frame. rewrite send_run. fold h. fold frame. split.
  - intros Hw. by rewrite Hw.
  - intros Hw. by rewrite Hw.
Qed.

End ExchangeClaims.

(* ------------------------------------------------------------------ *)
(** ** Concrete exchanges *)

(** A checksum for the examples: XOR of the bytes. *)
Definition xor_checksum (l : list Z) : Z := fold_left Z.lxor l 0.

Definition req0 : Packet := mkPacket 0 0x1f 0x0d 0x82 2 [1; 2].
Definition resp0 : Packet := mkPacket 2 0x1f 0x0d 0x82 2 [1; 2].
Definition stale0 : Packet := mkPacket 2 0x1f 0x0d 0x86 2 [1; 2].
Definition test_dev : Device := mkDevice iface1 blade.

(** A host whose interface "if1" accepts writes or not and answers reads
    with [reply]. *)
Definition send_host (write_ok : bool) (reply : option (nat * list Z)) : World :=
  mkWorld Linux (Some [iface1]) all_paths (fun _ _ => write_ok) (fun _ => reply) None None.

Definition reply_of (p : Packet) : list Z := 0 :: encode 2 xor_checksum p.

Example send_ok :
  fst (run (send 2 xor_checksum test_dev req0) (send_host true (Some (9%nat, reply_of resp0))))
  = Ok resp0.
Proof. vm_compute. reflexivity. Qed.

Example send_stale_response :
  fst (run (send 2 xor_checksum test_dev req0) (send_host true (Some (9%nat, reply_of stale0))))
  = Err (EPacket IdentityMismatch).
Proof. vm_compute. reflexivity. Qed.

Example send_corrupted_response :
  fst (run (send 2 xor_checksum test_dev req0)
         (send_host true (Some (9%nat, [0; 2; 0x1f; 0x0d; 0x86; 2; 1; 2; 0]))))
  = Err (EPacket ChecksumInvalid).
Proof. vm_compute. reflexivity. Qed.

Example send_short_read :
  fst (run (send 2 xor_checksum test_dev req0) (send_host true (Some (8%nat, reply_of resp0))))
  = Err (EResponseSize 9).
Proof. vm_compute. reflexivity. Qed.

Lemma send_validates_response_witness :
  w_send_feature_ok (send_host true (Some (9%nat, reply_of resp0))) "if1"
    (0 :: encode 2 xor_checksum req0) = true /\
  w_get_feature (send_host true (Some (9%nat, reply_of resp0))) "if1"
    = Some (9%nat, reply_of resp0) /\
  fst (run (send 2 xor_checksum test_dev req0) (send_host true (Some (9%nat, reply_of resp0))))
    = Ok resp0.
Proof.
  split; [reflexivity|]. split; [reflexivity|].
  apply (proj2 (proj2 (proj2 (send_validates_response 2 xor_checksum test_dev req0
           (send_host true (Some (9%nat, reply_of resp0)))) (reply_of resp0) eq_refl eq_refl))
           resp0); vm_compute; reflexivity.
Defined.

Lemma send_exact_response_size_witness :
  fst (run (send 2 xor_checksum test_dev req0) (send_host true (Some (0%nat, []))))
  = Err (EResponseSize 9).
Proof.
  apply (proj1 (proj2 (send_exact_response_size 2 xor_checksum test_dev req0
           (send_host true (Some (0%nat, []))))) 0%nat []); [reflexivity|reflexivity|].
  vm_compute. discriminate.
Defined.

(** C6 (counterexample). When the write fails, [send] neither sleeps a
    second time nor reads. *)
Lemma send_write_failure_skips_read :
  let tr := snd (run (send 2 xor_checksum test_dev req0) (send_host false None)) in
  tr = [EvSleep 1000; EvSendFeature "if1" (0 :: encode 2 xor_checksum req0)] /\
  ~ In (EvGetFeature "if1" 9) tr /\ ~ In (EvSleep 2000) tr.
Proof.
  vm_compute. split; [reflexivity|].
  split; intros [H|[H|[]]]; discriminate.
Qed.

Lemma send_timing_witness :
  w_send_feature_ok (send_host true None) "if1" (0 :: encode 2 xor_checksum req0) = true /\
  snd (run (send 2 xor_checksum test_dev req0) (send_host true None))
  = [EvSleep 1000; EvSendFeature "if1" (0 :: encode 2 xor_checksum req0);
     EvSleep 2000; EvGetFeature "if1" 9].
Proof.
  split; [reflexivity|].
  exact (proj1 (send_timing 2 xor_checksum test_dev req0 (send_host true None)) eq_refl).
Defined.

(* ------------------------------------------------------------------ *)
(** ** Sessions: how they are made *)

Definition session_invariant (dev : Device) : Prop :=
  hid_vid (dev_handle dev) = RAZER_VID /\ hid_pid (dev_handle dev) = pid (info dev).

Lemma open_candidates_ok d cands w t dev :
  fst (open_candidates d cands w t) = Ok dev -> In (dev_handle dev) cands /\ info dev = d.
Proof.
  revert t; induction cands as [|i cands IH]; intros t; simpl; [discriminate|].
  unfold_io. destruct (w_open_ok w (hid_path i)); [|discriminate].
  cbn. destruct (w_send_feature_ok w (hid_path i) [0; 0]).
  - intros [= <-]. simpl. by split; [left|].
  - intros Hok. apply IH in Hok as [Hin Hd]. by split; [right|].
Qed.

Lemma device_new_ok d w t dev :
  fst (device_new d w t) = Ok dev ->
  session_invariant dev /\ info dev = d /\
  exists l, w_hid_devices w = Some l /\ In (dev_handle dev) l.
Proof.
  unfold device_new. unfold_io.
  destruct (w_hid_devices w) as [l|]; [|discriminate].
  intros Hok. apply open_candidates_ok in Hok as [Hin Hd].
  rewrite <- list_elem_of_In, list_elem_of_filter, list_elem_of_In in Hin.
  destruct Hin as [Ht Hin]. unfold is_target in Ht.
  apply andb_prop in Ht as [Hv Hp].
  apply bool_decide_eq_true in Hv, Hp.
  split; [|split; [done|by exists l]]. split; [done|]. by rewrite Hd.
Qed.

Lemma detect_ok SUPPORTED w dev :
  fst (run (detect SUPPORTED) w) = Ok dev ->
  session_invariant dev /\ In (info dev) SUPPORTED.
Proof.
  rewrite detect_run. destruct (run enumerate w) as [[[pids model]|e] t]; [|discriminate].
  destruct (find_supported SUPPORTED model) as [desc|] eqn:Hf; [|discriminate].
  intros Hok. apply device_new_ok in Hok as (Hinv & Hd & _).
  split; [done|]. rewrite Hd. apply find_some in Hf as [Hin _]. exact Hin.
Qed.

Lemma main_session_manual_run ALL_FEATURES SUPPORTED p w :
  run (main_session ALL_FEATURES SUPPORTED (CmdManual p)) w =
    match run (device_new (unknown_descriptor ALL_FEATURES p)) w with
    | (Ok d, t) => (Ok (Some d), t)
    | (Err e, t) => (Err e, t)
    end.
Proof.
  unfold run, main_session, bind, ret.
  by destruct (device_new (unknown_descriptor ALL_FEATURES p) w []) as [[d|e] t].
Qed.

Lemma main_session_auto_run ALL_FEATURES SUPPORTED w :
  run (main_session ALL_FEATURES SUPPORTED CmdAuto) w =
    match run (detect SUPPORTED) w with
    | (Ok d, t) => (Ok (Some d), t)
    | (Err e, t) => (Err e, t)
    end.
Proof.
  unfold run, main_session, bind, ret.
  by destruct (detect SUPPORTED w []) as [[d|e] t].
Qed.

(** The world with another platform and other SKU sources. *)
Definition with_model_source (w : World) (pl : Platform) (win lin : option string) : World :=
  mkWorld pl (w_hid_devices w) (w_open_ok w) (w_send_feature_ok w) (w_get_feature w) win lin.

Lemma open_candidates_model_source d cands w pl win lin t :
  open_candidates d cands (with_model_source w pl win lin) t = open_candidates d cands w t.
Proof.
  revert t; induction cands as [|i cands IH]; intros t; [reflexivity|]. simpl.
  unfold_io. simpl. destruct (w_open_ok w (hid_path i)); [|reflexivity].
  cbn. destruct (w_send_feature_ok w (hid_path i) [0; 0]); [reflexivity|]. apply IH.
Qed.

Lemma device_new_model_source d w pl win lin :
  run (device_new d) (with_model_source w pl win lin) = run (device_new d) w.
Proof.
  unfold device_new. unfold_io. simpl.
  destruct (w_hid_devices w); [apply open_candidates_model_source|reflexivity].
Qed.

Lemma open_candidates_no_model_read d cands w t :
  In EvReadModel (snd (open_candidates d cands w t)) -> In EvReadModel t.
Proof.
  revert t; induction cands as [|i cands IH]; intros t; simpl; [done|].
  unfold_io. destruct (w_open_ok w (hid_path i)); cbn.
  - destruct (w_send_feature_ok w (hid_path i) [0; 0]); cbn.
    + rewrite !in_app_iff; simpl. intuition discriminate.
    + intros Hin%IH. rewrite !in_app_iff in Hin; simpl in Hin. intuition discriminate.
  - rewrite !in_app_iff; simpl. intuition discriminate.
Qed.

Lemma device_new_no_model_read d w :
  ~ In EvReadModel (snd (run (device_new d) w)).
Proof.
  unfold device_new. unfold_io. simpl.
  destruct (w_hid_devices w) as [l|].
  - intros Hin%open_candidates_no_model_read. destruct Hin as [?|[]]; discriminate.
  - intros [?|[]]; discriminate.
Qed.

(* ------------------------------------------------------------------ *)
(** ** C9: manual sessions *)

(** C9. The manual path ([razer-cli manual --pid P]) neither reads the model
    identifier nor looks at the registry: its run is the same for every
    registry and every platform and SKU source, its trace has no model read,
    and its session carries the "Unknown" placeholder with pid P and all
    features. *)
Theorem manual_session_placeholder (ALL_FEATURES : list string)
  (SUPPORTED SUPPORTED' : list Descriptor) (p : Z) (w : World) :
  run (main_session ALL_FEATURES SUPPORTED (CmdManual p)) w
    = run (main_session ALL_FEATURES SUPPORTED' (CmdManual p)) w /\
  (forall pl win lin,
     run (main_session ALL_FEATURES SUPPORTED (CmdManual p)) (with_model_source w pl win lin)
     = run (main_session ALL_FEATURES SUPPORTED (CmdManual p)) w) /\
  ~ In EvReadModel (snd (run (main_session ALL_FEATURES SUPPORTED (CmdManual p)) w)) /\
  (forall dev, fst (run (main_session ALL_FEATURES SUPPORTED (CmdManual p)) w) = Ok (Some dev) ->
     info dev = mkDescriptor "Unknown" "Unknown" p ALL_FEATURES).
Proof.
  rewrite !main_session_manual_run. split; [reflexivity|]. split; [|split].
  - intros pl win lin. rewrite main_session_manual_run. by rewrite device_new_model_source.
  - pose proof (device_new_no_model_read (unknown_descriptor ALL_FEATURES p) w) as Hn.
    by destruct (run (device_new (unknown_descriptor ALL_FEATURES p)) w) as [[d|e] t].
  - intros dev. destruct (run (device_new _) w) as [[d|e] t] eqn:Hr; [|discriminate].
    intros [= <-]. pose proof (device_new_ok (unknown_descriptor ALL_FEATURES p) w [] d) as Hok.
    unfold run in Hr. rewrite Hr in Hok. by destruct (Hok eq_refl) as (_ & -> & _).
Qed.

Lemma manual_session_placeholder_witness :
  fst (run (main_session [] [blade] (CmdManual 0xABCD)) (send_host true None))
    = Ok (Some (mkDevice iface1 (unknown_descriptor [] 0xABCD))) /\
  info (mkDevice iface1 (unknown_descriptor [] 0xABCD))
    = mkDescriptor "Unknown" "Unknown" 0xABCD [].
Proof.
  assert (fst (run (main_session [] [blade] (CmdManual 0xABCD)) (send_host true None))
          = Ok (Some (mkDevice iface1 (unknown_descriptor [] 0xABCD)))) as H
    by (vm_compute; reflexivity).
  split; [exact H|].
  exact (proj2 (proj2 (proj2 (manual_session_placeholder [] [blade] [blade] 0xABCD
           (send_host true None)))) _ H).
Defined.

(* ------------------------------------------------------------------ *)
(** ** C10: the session invariant *)

(** C10. Every session, from [Device::new], from [detect] or from [main] in
    either mode, holds a handle opened on an enumerated interface whose
    (vendor, product) is (0x1532, descriptor.pid); [send] takes the session
    as it is, and every interaction of an exchange goes through that
    handle. *)
Theorem session_binding_invariant :
  (forall d w dev, fst (run (device_new d) w) = Ok dev ->
     session_invariant dev /\ info dev = d /\
     exists l, w_hid_devices w = Some l /\ In (dev_handle dev) l) /\
  (forall SUPPORTED w dev, fst (run (detect SUPPORTED) w) = Ok dev ->
     session_invariant dev /\ In (info dev) SUPPORTED) /\
  (forall ALL_FEATURES SUPPORTED cmd w dev,
     fst (run (main_session ALL_FEATURES SUPPORTED cmd) w) = Ok (Some dev) ->
     session_invariant dev) /\
  (forall args_len checksum dev req w ev,
     In ev (snd (run (send args_len checksum dev req) w)) ->
     match ev with
     | EvSleep _ => True
     | EvSendFeature p _ | EvGetFeature p _ => p = hid_path (dev_handle dev)
     | _ => False
     end).
Proof.
  split; [|split; [|split]].
  - intros d w dev. apply device_new_ok.
  - apply detect_ok.
  - intros ALL_FEATURES SUPPORTED [| | p] w dev.
    + unfold run, main_session, bind, ret. simpl.
      by destruct (enumerate w []) as [[?|?] ?].
    + rewrite main_session_auto_run.
      destruct (run (detect SUPPORTED) w) as [[d|e] t] eqn:Hr; [|discriminate].
      intros [= <-]. apply (detect_ok SUPPORTED w). by rewrite Hr.
    + rewrite main_session_manual_run.
      destruct (run (device_new _) w) as [[d|e] t] eqn:Hr; [|discriminate].
      intros [= <-]. pose proof (device_new_ok (unknown_descriptor ALL_FEATURES p) w [] d) as Hok.
      unfold run in Hr. rewrite Hr in Hok. by destruct (Hok eq_refl) as (? & _ & _).
  - intros args_len checksum dev req w ev. rewrite send_run.
    destruct (w_send_feature_ok _ _ _); simpl.
    + intros [<-|[<-|[<-|[<-|[]]]]]; done.
    + intros [<-|[<-|[]]]; done.
Qed.

Lemma session_binding_invariant_witness :
  fst (run (device_new blade) (linux_host [mouse; iface0; iface1] all_paths (only "if1") None None))
    = Ok (mkDevice iface1 blade) /\
  session_invariant (mkDevice iface1 blade).
Proof.
  assert (fst (run (device_new blade)
                 (linux_host [mouse; iface0; iface1] all_paths (only "if1") None None))
          = Ok (mkDevice iface1 blade)) as H by reflexivity.
  split; [exact H|].
  exact (proj1 (proj1 session_binding_invariant blade _ _ H)).
Defined.

(* ------------------------------------------------------------------ *)
(** ** Further properties of [Device::new] *)

(** Events of the candidate loop, each about one of the candidates; the only
    data ever written is the 2-byte probe. *)
Definition candidate_event (cands : list HidInfo) (ev : Event) : Prop :=
  match ev with
  | EvOpen p | EvClose p => exists i, In i cands /\ hid_path i = p
  | EvSendFeature p data => data = [0; 0] /\ exists i, In i cands /\ hid_path i = p
  | _ => False
  end.

Lemma open_candidates_events d cands w t ev :
  In ev (snd (open_candidates d cands w t)) -> In ev t \/ candidate_event cands ev.
Proof.
  revert t; induction cands as [|i cands IH]; intros t; simpl; [by left|].
  assert (forall ev', candidate_event cands ev' -> candidate_event (i :: cands) ev') as Hmono.
  { intros [] Hc; simpl in *; try done;
      [destruct Hc as (j & ? & ?) | destruct Hc as (j & ? & ?) | destruct Hc as (? & j & ? & ?)];
      try (split; [done|]); exists j; by split; [right|]. }
  assert (candidate_event (i :: cands) (EvOpen (hid_path i))) as Ho by (exists i; by split; [left|]).
  assert (candidate_event (i :: cands) (EvSendFeature (hid_path i) [0; 0])) as Hs
    by (split; [done|]; exists i; by split; [left|]).
  assert (candidate_event (i :: cands) (EvClose (hid_path i))) as Hc by (exists i; by split; [left|]).
  unfold_io. destruct (w_open_ok w (hid_path i)); cbn.
  - destruct (w_send_feature_ok w (hid_path i) [0; 0]); cbn.
    + rewrite !in_app_iff; simpl.
      intros [[Ht|[<-|[]]]|[<-|[]]]; [by left|by right|by right].
    + intros [Hin|Hin]%IH; [|by right; apply Hmono].
      rewrite !in_app_iff in Hin; simpl in Hin.
      destruct Hin as [[[Ht|[<-|[]]]|[<-|[]]]|[<-|[]]]; [by left|by right..].
  - rewrite !in_app_iff; simpl. intros [Ht|[<-|[]]]; [by left|by right].
Qed.

(** [Device::new] only opens, probes and closes interfaces with vendor 0x1532
    and the descriptor's product id, writes nothing but the 2-byte probe
    [0, 0], and never reads a feature report, sleeps or reads the model. *)
Theorem device_new_io_scope (d : Descriptor) (w : World) (ev : Event) :
  In ev (snd (run (device_new d) w)) ->
  ev = EvHidInit \/
  exists l, w_hid_devices w = Some l /\
    candidate_event (filter (fun i => is_target d i = true) l) ev.
Proof.
  unfold device_new. unfold_io. simpl.
  destruct (w_hid_devices w) as [l|].
  - intros [[<-|[]]|Hc]%open_candidates_events; [by left|]. right. by exists l.
  - intros [<-|[]]. by left.
Qed.

Lemma candidate_event_target d l p :
  (exists i, In i (filter (fun i => is_target d i = true) l) /\ hid_path i = p) <->
  exists i, In i l /\ hid_vid i = RAZER_VID /\ hid_pid i = pid d /\ hid_path i = p.
Proof.
  split; intros (i & Hin & Hrest); exists i;
    rewrite <- list_elem_of_In, list_elem_of_filter, list_elem_of_In in *;
    unfold is_target in *.
  - destruct Hin as [Ht Hin]. apply andb_prop in Ht as [Hv Hp].
    apply bool_decide_eq_true in Hv, Hp. done.
  - destruct Hrest as (Hv & Hp & Hpath). split; [|done]. split; [|done].
    by rewrite !bool_decide_eq_true_2.
Qed.

Lemma device_new_io_scope_witness :
  In (EvClose "if0")
    (snd (run (device_new blade) (linux_host [mouse; iface0; iface1] all_paths (only "if1") None None))) /\
  (EvClose "if0" = EvHidInit \/
   exists l, w_hid_devices (linux_host [mouse; iface0; iface1] all_paths (only "if1") None None) = Some l /\
     candidate_event (filter (fun i => is_target blade i = true) l) (EvClose "if0")).
Proof.
  assert (In (EvClose "if0")
    (snd (run (device_new blade) (linux_host [mouse; iface0; iface1] all_paths (only "if1") None None))))
    as H by (vm_compute; tauto).
  split; [exact H|]. exact (device_new_io_scope _ _ _ H).
Defined.

(** With no interface of vendor 0x1532 and the descriptor's product id,
    [Device::new] opens nothing and fails with "Failed to open device", the
    same error as when every candidate rejects the probe. *)
Theorem device_new_no_candidate (d : Descriptor) (w : World) (l : list HidInfo) :
  w_hid_devices w = Some l ->
  Forall (fun i => hid_vid i <> RAZER_VID \/ hid_pid i <> pid d) l ->
  run (device_new d) w = (Err (EFailedToOpen d), [EvHidInit]).
Proof.
  intros Hl Hall. rewrite (device_new_run d w l Hl).
  assert (filter (fun i => is_target d i = true) l = []) as ->; [|reflexivity].
  clear Hl. induction Hall as [|i l Hi _ IH]; [reflexivity|].
  rewrite filter_cons, decide_False; [exact IH|].
  unfold is_target. intros Ht. apply andb_prop in Ht as [Hv Hp].
  apply bool_decide_eq_true in Hv, Hp. tauto.
Qed.

Lemma device_new_no_candidate_witness :
  run (device_new blade) mouse_only_host = (Err (EFailedToOpen blade), [EvHidInit]).
Proof.
  apply (device_new_no_candidate blade mouse_only_host [mouse] eq_refl).
  constructor; [left; unfold mouse, RAZER_VID; simpl; lia | constructor].
Defined.

(* ------------------------------------------------------------------ *)
(** ** Further properties of [enumerate] *)

(** A successful [enumerate] returns a model starting with "RZ09-" and a
    non-empty list of product ids. *)
Theorem enumerate_ok_shape (w : World) (pids : list Z) (model : string) :
  fst (run enumerate w) = Ok (pids, model) ->
  String.prefix "RZ09-" model = true /\ pids <> [].
Proof.
  destruct (w_hid_devices w) as [l|] eqn:Hw;
    [|by rewrite (enumerate_run_api_error w Hw)].
  rewrite (enumerate_run w l Hw).
  destruct (filter (fun i => is_razer i = true) l) as [|i r] eqn:Hf; [discriminate|].
  simpl. destruct (read_device_model w) as [m|e]; [|discriminate].
  destruct (String.prefix "RZ09-" m) eqn:Hp; [|discriminate].
  intros [= <- <-]. split; [done|]. intros Hnil.
  assert (In (hid_pid i) (unique_pids (i :: r))) as Hin
    by (apply in_unique_pids; exists i; by split; [left|]).
  by rewrite Hnil in Hin.
Qed.

Lemma enumerate_ok_shape_witness :
  fst (run enumerate (blade_host (Some "RZ09-0410"))) = Ok ([0xABCD], "RZ09-0410") /\
  String.prefix "RZ09-" "RZ09-0410" = true /\ [0xABCD] <> [].
Proof.
  assert (fst (run enumerate (blade_host (Some "RZ09-0410"))) = Ok ([0xABCD], "RZ09-0410"))
    as H by (vm_compute; reflexivity).
  split; [exact H|]. exact (enumerate_ok_shape _ _ _ H).
Defined.

(* ------------------------------------------------------------------ *)
(** ** Further properties of [detect] *)

Lemma enumerate_trace w :
  snd (run enumerate w) = [EvHidInit] \/ snd (run enumerate w) = [EvHidInit; EvReadModel].
Proof.
  destruct (w_hid_devices w) as [l|] eqn:Hw; [|rewrite (enumerate_run_api_error w Hw); by left].
  rewrite (enumerate_run w l Hw). destruct (filter _ l); [by left | by right].
Qed.

Lemma enumerate_ok_facts w pids model :
  fst (run enumerate w) = Ok (pids, model) ->
  String.prefix "RZ09-" model = true /\ NoDup pids /\
  (forall p, In p pids <->
     exists l i, w_hid_devices w = Some l /\ In i l /\ hid_vid i = RAZER_VID /\ hid_pid i = p) /\
  snd (run enumerate w) = [EvHidInit; EvReadModel].
Proof.
  destruct (w_hid_devices w) as [l|] eqn:Hw;
    [|by rewrite (enumerate_run_api_error w Hw)].
  rewrite (enumerate_run w l Hw).
  destruct (filter (fun i => is_razer i = true) l) as [|i r] eqn:Hf; [discriminate|].
  simpl. destruct (read_device_model w) as [m|e]; [|discriminate].
  destruct (String.prefix "RZ09-" m) eqn:Hp; [|discriminate].
  intros [= <- <-]. split; [done|]. split; [unfold unique_pids; apply NoDup_elements|].
  split; [|done]. intros p. rewrite in_unique_pids. split.
  - intros (j & Hj & <-). rewrite <- Hf, in_razer_filter in Hj.
    exists l, j. by destruct Hj.
  - intros (l' & j & [= <-] & Hj & Hv & <-). exists j.
    rewrite <- Hf, in_razer_filter. done.
Qed.

Lemma find_supported_none SUPPORTED s :
  find_supported SUPPORTED s = None -> Forall (fun d => ~ prefix_matches s d) SUPPORTED.
Proof.
  induction SUPPORTED as [|e T IH]; simpl; [constructor|].
  destruct (String.prefix (model_number_prefix e) s) eqn:He; [discriminate|].
  intros Hn. constructor; [|by apply IH].
  intros Hm. apply prefix_matches_spec in Hm. congruence.
Qed.

Lemma device_new_events d w t ev :
  In ev (snd (device_new d w t)) ->
  In ev t \/ ev = EvHidInit \/
  exists l, w_hid_devices w = Some l /\
    candidate_event (filter (fun i => is_target d i = true) l) ev.
Proof.
  unfold device_new. unfold_io. simpl.
  destruct (w_hid_devices w) as [l|].
  - intros [Hin|Hc]%open_candidates_events.
    + apply in_app_or in Hin as [Ht|[<-|[]]]; [by left | by right; left].
    + right; right. by exists l.
  - intros Hin. apply in_app_or in Hin as [Ht|[<-|[]]]; [by left | by right; left].
Qed.

Lemma device_new_errors d w t e :
  fst (device_new d w t) = Err e ->
  e = EHidApi \/ (exists p, e = EOpenPath p) \/ e = EFailedToOpen d.
Proof.
  unfold device_new. unfold_io. simpl.
  destruct (w_hid_devices w) as [l|]; [|intros [= <-]; by left].
  generalize (t ++ [EvHidInit]). clear t.
  induction (filter (fun i => is_target d i = true) l) as [|i cands IH]; intros t; simpl.
  - intros [= <-]. by right; right.
  - unfold_io. destruct (w_open_ok w (hid_path i)); cbn.
    + destruct (w_send_feature_ok w (hid_path i) [0; 0]); cbn; [discriminate|apply IH].
    + intros [= <-]. right; left. by eexists.
Qed.

(** [detect] opens an interface only after the model has been read and
    matched a registry entry, and only an interface with vendor 0x1532 and
    that entry's product id. *)
Theorem detect_opens_only_after_match (SUPPORTED : list Descriptor) (w : World) (p : string) :
  In (EvOpen p) (snd (run (detect SUPPORTED) w)) ->
  exists pids model d,
    fst (run enumerate w) = Ok (pids, model) /\ find_supported SUPPORTED model = Some d /\
    exists l i, w_hid_devices w = Some l /\ In i l /\
      hid_vid i = RAZER_VID /\ hid_pid i = pid d /\ hid_path i = p.
Proof.
  rewrite detect_run. pose proof (enumerate_trace w) as Htr.
  destruct (run enumerate w) as [[[pids model]|e] t] eqn:He.
  - destruct (find_supported SUPPORTED model) as [d|] eqn:Hf.
    + intros [Hin|[Hin|(l & Hl & Hc)]]%device_new_events.
      * exfalso. simpl in Htr. destruct Htr as [->| ->]; simpl in Hin; intuition discriminate.
      * discriminate.
      * exists pids, model, d. split; [done|]. split; [done|].
        simpl in Hc. apply candidate_event_target in Hc as (i & ?). exists l, i. tauto.
    + simpl in *. destruct Htr as [->| ->]; simpl; intuition discriminate.
  - simpl in *. destruct Htr as [->| ->]; simpl; intuition discriminate.
Qed.

Lemma detect_opens_only_after_match_witness :
  In (EvOpen "if0") (snd (run (detect [blade]) (blade_host (Some "RZ09-0410")))) /\
  exists pids model d,
    fst (run enumerate (blade_host (Some "RZ09-0410"))) = Ok (pids, model) /\
    find_supported [blade] model = Some d /\
    exists l i, w_hid_devices (blade_host (Some "RZ09-0410")) = Some l /\ In i l /\
      hid_vid i = RAZER_VID /\ hid_pid i = pid d /\ hid_path i = "if0".
Proof.
  assert (In (EvOpen "if0") (snd (run (detect [blade]) (blade_host (Some "RZ09-0410")))))
    as H by (vm_compute; tauto).
  split; [exact H|]. exact (detect_opens_only_after_match _ _ _ H).
Defined.

(** When no registry entry matches, [detect] reports the model (which starts
    with "RZ09-") together with the distinct product ids of the vendor's
    interfaces, having opened no interface. *)
Theorem detect_unsupported_report (SUPPORTED : list Descriptor) (w : World)
  (model : string) (pids : list Z) :
  fst (run (detect SUPPORTED) w) = Err (EModelNotSupported model pids) ->
  String.prefix "RZ09-" model = true /\
  Forall (fun d => ~ prefix_matches model d) SUPPORTED /\
  NoDup pids /\
  (forall p, In p pids <->
     exists l i, w_hid_devices w = Some l /\ In i l /\ hid_vid i = RAZER_VID /\ hid_pid i = p) /\
  snd (run (detect SUPPORTED) w) = [EvHidInit; EvReadModel].
Proof.
  rewrite detect_run.
  destruct (run enumerate w) as [[[pids' model']|e] t] eqn:He.
  - assert (fst (run enumerate w) = Ok (pids', model')) as Hok by (by rewrite He).
    apply enumerate_ok_facts in Hok as (Hp & Hnd & Hmem & Ht). rewrite He in Ht. simpl in Ht.
    destruct (find_supported SUPPORTED model') as [d|] eqn:Hf.
    + destruct (device_new d w t) as [r t'] eqn:Hd. simpl. intros ->.
      assert (fst (device_new d w t) = Err (EModelNotSupported model pids)) as He'
        by (by rewrite Hd).
      apply device_new_errors in He' as [?|[[? ?]|?]]; discriminate.
    + intros [= <- <-]. apply find_supported_none in Hf. simpl. by subst t.
  - intros [= ->]. simpl in He.
    destruct (w_hid_devices w) as [l|] eqn:Hw.
    + rewrite (enumerate_run w l Hw) in He.
      destruct (filter _ l); [discriminate|].
      destruct (read_device_model w); [destruct (String.prefix _ _)|]; discriminate.
    + rewrite (enumerate_run_api_error w Hw) in He. discriminate.
Qed.

Lemma detect_unsupported_report_witness :
  fst (run (detect [blade_041]) (blade_host (Some "RZ09-0500")))
    = Err (EModelNotSupported "RZ09-0500" [0xABCD]) /\
  snd (run (detect [blade_041]) (blade_host (Some "RZ09-0500"))) = [EvHidInit; EvReadModel].
Proof.
  assert (fst (run (detect [blade_041]) (blade_host (Some "RZ09-0500")))
          = Err (EModelNotSupported "RZ09-0500" [0xABCD])) as H by (vm_compute; reflexivity).
  split; [exact H|].
  exact (proj2 (proj2 (proj2 (proj2 (detect_unsupported_report _ _ _ _ H))))).
Defined.

(* ------------------------------------------------------------------ *)
(** ** The model identifier returned by [read_device_model] *)

Lemma string_rev_involutive s : string_rev (string_rev s) = s.
Proof.
  unfold string_rev. rewrite list_ascii_of_string_of_list_ascii, rev_involutive.
  apply string_of_list_ascii_of_string.
Qed.

Lemma trim_start_idempotent s : trim_start (trim_start s) = trim_start s.
Proof.
  induction s as [|c s IH]; simpl; [done|].
  destruct (is_whitespace c) eqn:Hc; [done|]. simpl. by rewrite Hc.
Qed.

Lemma trim_start_RZ s : String.prefix "RZ" s = true -> trim_start s = s.
Proof.
  destruct s as [|c s]; [discriminate|]. cbn.
  destruct c as [[] [] [] [] [] [] [] []]; cbn; intros H; try discriminate H; reflexivity.
Qed.

(* A product_sku surrounded by a no-break space (U+00A0) and a newline is
   trimmed like [str::trim] does, and accepted. *)
Example linux_sku_nbsp_trimmed :
  read_device_model (blade_host (Some (String (ascii_of_nat 160) "RZ09-0410
"))) = inl "RZ09-0410".
Proof. vm_compute. reflexivity. Qed.

(** On Linux the identifier is the trimmed DMI product SKU, starts with "RZ",
    and is left unchanged by a further [trim]: no surrounding whitespace
    remains. *)
Theorem linux_model_trimmed (w : World) (sku model : string) :
  w_platform w = Linux -> w_linux_sku w = Some sku -> read_device_model w = inl model ->
  model = trim sku /\ String.prefix "RZ" model = true /\ trim model = model.
Proof.
  intros Hpl Hs. unfold read_device_model. rewrite Hpl, Hs. cbv zeta.
  destruct (String.prefix "RZ" (trim sku)) eqn:Hp; [|discriminate].
  intros [= <-]. split; [done|]. split; [done|].
  unfold trim at 1. rewrite (trim_start_RZ _ Hp).
  unfold trim. rewrite string_rev_involutive, trim_start_idempotent. done.
Qed.

(** A SKU padded with no-break spaces (U+00A0), a space and a newline. *)
Definition padded_sku : string :=
  String (ascii_of_nat 160) (" RZ09-0410" ++ String (ascii_of_nat 160) "
").

Lemma linux_model_trimmed_witness :
  read_device_model (blade_host (Some padded_sku)) = inl "RZ09-0410" /\
  "RZ09-0410" = trim padded_sku /\ String.prefix "RZ" "RZ09-0410" = true /\
  trim "RZ09-0410" = "RZ09-0410".
Proof.
  split; [vm_compute; reflexivity|].
  apply (linux_model_trimmed (blade_host (Some padded_sku))); vm_compute; reflexivity.
Defined.

Lemma substring_prefix n s :
  String.length (substring 0 n s) = Nat.min n (String.length s) /\
  String.prefix (substring 0 n s) s = true.
Proof.
  revert s. induction n as [|n IH]; intros [|c s]; simpl; try done.
  destruct (IH s) as [Hl Hp]. split; [by rewrite Hl|].
  destruct (ascii_dec c c); [exact Hp|congruence].
Qed.

(** On Windows the identifier is the first ten characters of the registry's
    SystemSKU: at most ten characters long, and a prefix of the SKU. *)
Theorem windows_model_truncated (w : World) (sku model : string) :
  w_platform w = Windows -> w_windows_sku w = Some sku -> read_device_model w = inl model ->
  String.length model = Nat.min 10 (String.length sku) /\ String.prefix model sku = true.
Proof.
  intros Hpl Hs. unfold read_device_model. rewrite Hpl, Hs. intros [= <-].
  apply substring_prefix.
Qed.

Definition windows_host (sku : string) : World :=
  mkWorld Windows (Some [iface0]) all_paths (fun _ _ => true) (fun _ => None) (Some sku) None.

Lemma windows_model_truncated_witness :
  read_device_model (windows_host "RZ09-0410XYZ-1") = inl "RZ09-0410X" /\
  String.length "RZ09-0410X" = Nat.min 10 (String.length "RZ09-0410XYZ-1") /\
  String.prefix "RZ09-0410X" "RZ09-0410XYZ-1" = true.
Proof.
  split; [vm_compute; reflexivity|].
  apply (windows_model_truncated (windows_host "RZ09-0410XYZ-1")); reflexivity.
Defined.

(* ------------------------------------------------------------------ *)
(** ** The reports [send] exchanges *)

(** Splits a membership in a literal list into its cases. *)
Ltac split_in H :=
  repeat match type of H with
  | In _ (_ :: _) => destruct H as [H|H]
  | In _ [] => destruct H
  | _ \/ _ => destruct H as [H|H]
  | False => destruct H
  end.

(** [send] writes one report, to the device's own interface: report id 0
    followed by the encoded frame, [1 + size_of::<Packet>()] bytes; any read
    it performs is of that same size on the same interface. *)
Theorem send_report_shape (args_len : nat) (checksum : list Z -> Z)
  (dev : Device) (req : Packet) (w : World) :
  (forall p data, In (EvSendFeature p data) (snd (run (send args_len checksum dev req) w)) ->
     p = hid_path (dev_handle dev) /\ data = 0 :: encode args_len checksum req /\
     length data = (1 + frame_size args_len)%nat) /\
  (forall p n, In (EvGetFeature p n) (snd (run (send args_len checksum dev req) w)) ->
     p = hid_path (dev_handle dev) /\ n = (1 + frame_size args_len)%nat) /\
  length (filter (fun ev => match ev with EvSendFeature _ _ => true | _ => false end = true)
            (snd (run (send args_len checksum dev req) w))) = 1%nat.
Proof.
  rewrite send_run.
  destruct (w_send_feature_ok w _ _);
    [destruct (w_get_feature w _) as [[n data]|]|]; simpl;
    (split; [|split]);
    [ | | reflexivity | | | reflexivity | | | reflexivity ];
    intros p x Hin; split_in Hin; try discriminate Hin; injection Hin as <- <-;
    repeat split; cbn [length]; by rewrite ?length_encode.
Qed.

(* ------------------------------------------------------------------ *)
(** ** The CLI's [enumerate] and its feature list *)

(** The CLI's [enumerate]: the model, whether it is supported (logged as
    "Supported") and the product ids; errors are passed on. *)
Definition cli_enumerate (SUPPORTED : list Descriptor) : M (string * bool * list Z) :=
  r <- enumerate ;;
  let (pid_list, model) := r in
  let supported := existsb (fun d => String.prefix (model_number_prefix d) model) SUPPORTED in
  ret (model, supported, pid_list).

Section Features.

Variable ALL_FEATURES : list string.

(** The names of the features [iter_features!] yields, in its order. *)
Variable feature_names : list string.

(** [gen_cli_features]: the features whose name the list contains. *)
Definition gen_cli_features (feature_list : list string) : list string :=
  List.filter (fun n => existsb (String.eqb n) feature_list) feature_names.

(** [main]: [std::env::args_os().nth(1) == Some("auto".into())]. *)
Definition is_auto_mode (cmd : Subcommand) : bool :=
  match cmd with CmdAuto => true | _ => false end.

(** [main]: the feature list, from the detected device if any; then the
    CLI features, with [CustomCommand] ("cmd") pushed last. *)
Definition main_feature_list (device : option Device) : list string :=
  match device with
  | Some device => features (info device)
  | None => ALL_FEATURES
  end.

Definition main_cli_features (device : option Device) : list string :=
  gen_cli_features (main_feature_list device) ++ ["cmd"%string].

End Features.

Lemma send_report_shape_witness :
  (forall p data,
     In (EvSendFeature p data) (snd (run (send 2 xor_checksum test_dev req0) (send_host true None))) ->
     p = "if1" /\ data = 0 :: encode 2 xor_checksum req0 /\ length data = 9%nat) /\
  In (EvSendFeature "if1" (0 :: encode 2 xor_checksum req0))
     (snd (run (send 2 xor_checksum test_dev req0) (send_host true None))).
Proof.
  split; [|vm_compute; tauto].
  exact (proj1 (send_report_shape 2 xor_checksum test_dev req0 (send_host true None))).
Defined.

(* ------------------------------------------------------------------ *)
(** ** The CLI: [enumerate] and the feature list *)

Lemma existsb_find_supported SUPPORTED model :
  existsb (fun d => String.prefix (model_number_prefix d) model) SUPPORTED = false <->
  find_supported SUPPORTED model = None.
Proof.
  unfold find_supported. induction SUPPORTED as [|d T IH]; simpl; [done|].
  destruct (String.prefix (model_number_prefix d) model); [done|exact IH].
Qed.

Lemma cli_enumerate_run SUPPORTED w :
  run (cli_enumerate SUPPORTED) w =
    match run enumerate w with
    | (Ok (pids, model), t) =>
        (Ok (model, existsb (fun d => String.prefix (model_number_prefix d) model) SUPPORTED,
             pids), t)
    | (Err e, t) => (Err e, t)
    end.
Proof.
  unfold run, cli_enumerate, bind, ret.
  by destruct (enumerate w []) as [[[pids model]|e] t].
Qed.

(** The "Supported" flag the CLI's [enumerate] logs is false exactly when
    [detect], on the same host, refuses the model as not supported,
    reporting the same model and the same product ids up to order (each
    list comes from a [HashSet] of its own). *)
Theorem cli_enumerate_agrees_with_detect (SUPPORTED : list Descriptor) (w : World)
  (model : string) (supported : bool) (pids : list Z) :
  fst (run (cli_enumerate SUPPORTED) w) = Ok (model, supported, pids) ->
  supported = false <->
  exists pids', fst (run (detect SUPPORTED) w) = Err (EModelNotSupported model pids') /\
    pids' ≡ₚ pids.
Proof.
  rewrite cli_enumerate_run, detect_run.
  destruct (run enumerate w) as [[[pids0 model0]|e] t]; [|discriminate].
  simpl. intros [= <- <- <-]. rewrite existsb_find_supported.
  destruct (find_supported SUPPORTED model0) as [d|] eqn:Hf.
  - split; [discriminate|]. intros (pids' & He & _).
    apply device_new_errors in He as [?|[[? ?]|?]]; discriminate.
  - split; [|done]. intros _. by exists pids0.
Qed.

Lemma cli_enumerate_agrees_with_detect_witness :
  fst (run (cli_enumerate [blade_041]) (blade_host (Some "RZ09-0500")))
    = Ok ("RZ09-0500"%string, false, [0xABCD]) /\
  exists pids', fst (run (detect [blade_041]) (blade_host (Some "RZ09-0500")))
    = Err (EModelNotSupported "RZ09-0500" pids') /\ pids' ≡ₚ [0xABCD].
Proof.
  assert (fst (run (cli_enumerate [blade_041]) (blade_host (Some "RZ09-0500")))
          = Ok ("RZ09-0500"%string, false, [0xABCD])) as H by (vm_compute; reflexivity).
  split; [exact H|].
  exact (proj1 (cli_enumerate_agrees_with_detect _ _ _ _ _ H) eq_refl).
Defined.

(** The [enumerate] subcommand opens no interface and exchanges no report:
    it only initialises the HID API and reads the model identifier. *)
Theorem enumerate_subcommand_opens_nothing (ALL_FEATURES : list string)
  (SUPPORTED : list Descriptor) (w : World) :
  snd (run (main_session ALL_FEATURES SUPPORTED CmdEnumerate) w)
    = snd (run (cli_enumerate SUPPORTED) w) /\
  forall ev, In ev (snd (run (main_session ALL_FEATURES SUPPORTED CmdEnumerate) w)) ->
    ev = EvHidInit \/ ev = EvReadModel.
Proof.
  assert (snd (run (main_session ALL_FEATURES SUPPORTED CmdEnumerate) w)
          = snd (run enumerate w)) as Ht.
  { unfold run, main_session, bind, ret. by destruct (enumerate w []) as [[r|e] t]. }
  rewrite Ht, cli_enumerate_run. split.
  - by destruct (run enumerate w) as [[[pids model]|e] t].
  - intros ev. destruct (enumerate_trace w) as [-> | ->]; simpl; intuition.
Qed.

(** The CLI features [main] builds are those of the session's device: in
    auto mode the detected device's features, in manual mode
    [ALL_FEATURES], which is also the feature list of the placeholder
    device; "cmd" is always offered. *)
Theorem cli_features_of_session (ALL_FEATURES feature_names : list string)
  (SUPPORTED : list Descriptor) (cmd : Subcommand) (w : World) (dev : Device) (n : string) :
  fst (run (main_session ALL_FEATURES SUPPORTED cmd) w) = Ok (Some dev) ->
  In n (main_cli_features ALL_FEATURES feature_names
          (if is_auto_mode cmd then Some dev else None)) <->
  In n feature_names /\ In n (features (info dev)) \/ n = "cmd"%string.
Proof.
  intros Hok.
  assert (main_feature_list ALL_FEATURES (if is_auto_mode cmd then Some dev else None)
          = features (info dev)) as Hfl.
  { destruct cmd as [| |p]; simpl.
    - unfold run, main_session, bind, ret in Hok.
      by destruct (enumerate w []) as [[r|e] t].
    - done.
    - rewrite main_session_manual_run in Hok.
      destruct (run (device_new (unknown_descriptor ALL_FEATURES p)) w) as [[d|e] t] eqn:Hd;
        [|discriminate].
      simpl in Hok. injection Hok as <-.
      assert (fst (device_new (unknown_descriptor ALL_FEATURES p) w []) = Ok d) as Hd'
        by (unfold run in Hd; by rewrite Hd).
      apply device_new_ok in Hd' as (_ & -> & _). done. }
  unfold main_cli_features, gen_cli_features. rewrite Hfl.
  rewrite in_app_iff, filter_In, existsb_exists. simpl.
  split.
  - intros [[Hn (x & Hx & Heq)]|[<-|[]]]; [|by right].
    apply String.eqb_eq in Heq. subst x. by left.
  - intros [[Hn Hf]| ->]; [|by right; left].
    left. split; [done|]. exists n. split; [done|]. apply String.eqb_refl.
Qed.

Definition feature_names0 : list string := ["fan"; "perf"; "lid-logo"]%string.

Lemma cli_features_of_session_witness :
  fst (run (main_session ["perf"; "cmd"]%string [blade_041] (CmdManual 0xABCD))
         (blade_host (Some "RZ09-0410"))) =
    Ok (Some (mkDevice iface0 (unknown_descriptor ["perf"; "cmd"]%string 0xABCD))) /\
  (In "perf"%string (main_cli_features ["perf"; "cmd"]%string feature_names0 None) <->
   In "perf"%string feature_names0 /\ In "perf"%string ["perf"; "cmd"]%string \/
   "perf"%string = "cmd"%string).
Proof.
  assert (fst (run (main_session ["perf"; "cmd"]%string [blade_041] (CmdManual 0xABCD))
                (blade_host (Some "RZ09-0410"))) =
          Ok (Some (mkDevice iface0 (unknown_descriptor ["perf"; "cmd"]%string 0xABCD))))
    as H by (vm_compute; reflexivity).
  split; [exact H|].
  exact (cli_features_of_session _ _ _ (CmdManual 0xABCD) _ _ "perf" H).
Defined.

(** Each error of [detect] comes from one stage: from [enumerate] itself;
    from the registry lookup, as "not supported" with the model and product
    ids [enumerate] returned; or from [Device::new] on the entry the model
    matched, whose "Failed to open device" names that entry. *)
Theorem detect_error_sources (SUPPORTED : list Descriptor) (w : World) (e : Error) :
  fst (run (detect SUPPORTED) w) = Err e ->
  fst (run enumerate w) = Err e \/
  exists pids model, fst (run enumerate w) = Ok (pids, model) /\
    (find_supported SUPPORTED model = None /\ e = EModelNotSupported model pids \/
     exists d, find_supported SUPPORTED model = Some d /\
       (e = EHidApi \/ (exists p, e = EOpenPath p) \/ e = EFailedToOpen d)).
Proof.
  rewrite detect_run.
  destruct (run enumerate w) as [[[pids model]|e'] t]; [|simpl; intros [= ->]; by left].
  destruct (find_supported SUPPORTED model) as [d|] eqn:Hf; simpl; intros He;
    right; exists pids, model; (split; [done|]).
  - right. exists d. split; [done|]. by apply device_new_errors in He.
  - injection He as <-. by left.
Qed.

Lemma detect_error_sources_witness :
  fst (run (detect [blade_041]) (blade_host (Some "RZ09-0410"))) = Err (EFailedToOpen blade_041) /\
  (fst (run enumerate (blade_host (Some "RZ09-0410"))) = Err (EFailedToOpen blade_041) \/
   exists pids model, fst (run enumerate (blade_host (Some "RZ09-0410"))) = Ok (pids, model) /\
    (find_supported [blade_041] model = None /\ EFailedToOpen blade_041 = EModelNotSupported model pids \/
     exists d, find_supported [blade_041] model = Some d /\
       (EFailedToOpen blade_041 = EHidApi \/ (exists p, EFailedToOpen blade_041 = EOpenPath p) \/
        EFailedToOpen blade_041 = EFailedToOpen d))).
Proof.
  assert (fst (run (detect [blade_041]) (blade_host (Some "RZ09-0410")))
          = Err (EFailedToOpen blade_041)) as H by (vm_compute; reflexivity).
  split; [exact H|]. exact (detect_error_sources _ _ _ H).
Defined.
